(** * The root layout of the buyer web application ([src/app/layout.tsx])

    The module exports a static [metadata] object literal and the
    [RootLayout] component, a function from its props to a tree of React
    elements.  Both are embedded below: the object literal as a value of
    [Js.value], the JSX expression as a value of [React.ReactNode]. *)

From Stdlib Require Import Ascii String.
From stdpp Require Import base option list strings gmap.

#[local] Set Warnings "-register-all".

(** ** Plain JavaScript data: strings, arrays and object literals *)

Module Js.

(** The values that occur in the [metadata] literal.  An object keeps the
    fields of its literal in source order. *)
Inductive value : Type :=
| Str (s : string)
| Arr (items : list value)
| Obj (fields : list (string * value)).

Definition get_field (k : string) (fields : list (string * value)) : option value :=
  snd <$> List.find (fun kv => String.eqb kv.1 k) fields.

(** [v.k] *)
Definition get (k : string) (v : value) : option value :=
  match v with
  | Obj fields => get_field k fields
  | _ => None
  end.

(** [v[i]] *)
Definition index (i : nat) (v : value) : option value :=
  match v with
  | Arr items => items !! i
  | _ => None
  end.

(** [v.k1.k2...] *)
Fixpoint get_path (ks : list string) (v : value) : option value :=
  match ks with
  | [] => Some v
  | k :: ks' => get k v ≫= get_path ks'
  end.

Definition as_string (v : value) : option string :=
  match v with
  | Str s => Some s
  | _ => None
  end.

Definition as_array (v : value) : option (list value) :=
  match v with
  | Arr items => Some items
  | _ => None
  end.

(** Structural types, as a TypeScript object type spells them:
    [string], [T[]] and [{ k1: T1, ..., kn: Tn }]. *)
Inductive shape : Type :=
| SString
| SArray (elem : shape)
| SObject (fields : list (string * shape)).

(** [conforms sh v]: [v] has the shape [sh]; an object has exactly the
    fields the shape lists. *)
Fixpoint conforms (sh : shape) (v : value) : bool :=
  match sh, v with
  | SString, Str _ => true
  | SArray e, Arr items => forallb (conforms e) items
  | SObject fs, Obj vs =>
      Nat.eqb (length vs) (length fs)
      && forallb (fun ks : string * shape =>
                    match get_field ks.1 vs with
                    | Some x => conforms ks.2 x
                    | None => false
                    end) fs
  | _, _ => false
  end.

(** Every string stored under the key [k], anywhere inside [v]. *)
Fixpoint strings_at (k : string) (v : value) : list string :=
  match v with
  | Str _ => []
  | Arr items => flat_map (strings_at k) items
  | Obj fields =>
      flat_map (fun kv : string * value =>
                  (if String.eqb kv.1 k
                   then match kv.2 with Str s => [s] | _ => [] end
                   else [])
                  ++ strings_at k kv.2) fields
  end.

End Js.

(** ** Relative URLs: path and query parameters *)

Module Url.

(** The part of [s] before the first [c], and the part after it when [c]
    occurs. *)
Fixpoint cut (c : ascii) (s : string) : string * option string :=
  match s with
  | EmptyString => (EmptyString, None)
  | String a s' =>
      if Ascii.eqb a c then (EmptyString, Some s')
      else let r := cut c s' in (String a r.1, r.2)
  end.

(** [s] split at every [c]. *)
Fixpoint split (c : ascii) (s : string) : list string :=
  match s with
  | EmptyString => [EmptyString]
  | String a s' =>
      if Ascii.eqb a c then EmptyString :: split c s'
      else match split c s' with
           | [] => [String a EmptyString]
           | w :: ws => String a w :: ws
           end
  end.

Definition path (url : string) : string := (cut "?" url).1.

Definition query (url : string) : option string := (cut "?" url).2.

(** The [name=value] pairs of the query string, undecoded. *)
Definition search_params (url : string) : list (string * string) :=
  match query url with
  | None => []
  | Some q =>
      (fun kv => let r := cut "=" kv in (r.1, default EmptyString r.2))
        <$> split "&" q
  end.

Definition search_param (name url : string) : option string :=
  snd <$> List.find (fun kv => String.eqb kv.1 name) (search_params url).

End Url.

(** ** Class-name strings *)

Module ClassNames.

(** The separators of a [class] attribute: tab, line feed, form feed,
    carriage return and space. *)
Definition is_ascii_whitespace (a : ascii) : bool :=
  match a with
  | "009" | "010" | "012" | "013" | " " => true
  | _ => false
  end%char.

Definition emit (cur : string) (rest : list string) : list string :=
  if String.eqb cur EmptyString then rest else cur :: rest.

Fixpoint tokens_go (cur s : string) : list string :=
  match s with
  | EmptyString => emit cur []
  | String a s' =>
      if is_ascii_whitespace a then emit cur (tokens_go EmptyString s')
      else tokens_go (cur +:+ String a EmptyString) s'
  end.

(** The class list of a [class] attribute value: its maximal runs of
    characters other than whitespace, in order. *)
Definition class_tokens (s : string) : list string := tokens_go EmptyString s.

Fixpoint no_whitespace (s : string) : bool :=
  match s with
  | EmptyString => true
  | String a s' => negb (is_ascii_whitespace a) && no_whitespace s'
  end.

(** A single class name: not empty, no whitespace. *)
Definition is_class_token (s : string) : bool :=
  negb (String.eqb s EmptyString) && no_whitespace s.

(** Modelled from the spec: [cn] is imported from [@/lib/utils], which is
    not among the sources.  The spec describes it as a pure function
    [merge(classNames...) -> string] that "concatenates and deduplicates
    conditional class strings": the class names of all arguments, in
    order, each kept once, joined by single spaces. *)
Definition cn (inputs : list string) : string :=
  String.concat " " (remove_dups (flat_map class_tokens inputs)).

End ClassNames.

(** ** React element trees *)

Module React.

(** The attribute values that the layout's JSX uses: a string literal, or
    [true] for an attribute written without a value. *)
Inductive PropValue : Type :=
| PString (s : string)
| PBool (b : bool).

(** The imported components that the layout mounts. *)
Inductive Component : Type :=
| Toaster
| Navbar.

Inductive ElementType : Type :=
| Host (tag : string)
| Comp (c : Component).

(** [React.ReactNode].  An element carries its type, its attributes and
    the child expressions of its JSX in source order.  Numbers are left
    out: React renders them as their decimal text. *)
Inductive ReactNode : Type :=
| RUndefined
| RNull
| RBool (b : bool)
| RText (s : string)
| RArray (items : list ReactNode)
| RElement (type : ElementType) (props : gmap string PropValue)
           (kids : list ReactNode).

Global Instance PropValue_eq_dec : EqDecision PropValue.
Proof. solve_decision. Defined.

Global Instance Component_eq_dec : EqDecision Component.
Proof. solve_decision. Defined.

Global Instance ElementType_eq_dec : EqDecision ElementType.
Proof. solve_decision. Defined.

Definition node_type (n : ReactNode) : option ElementType :=
  match n with
  | RElement ty _ _ => Some ty
  | _ => None
  end.

Definition node_props (n : ReactNode) : gmap string PropValue :=
  match n with
  | RElement _ props _ => props
  | _ => ∅
  end.

Definition node_children (n : ReactNode) : list ReactNode :=
  match n with
  | RElement _ _ kids => kids
  | _ => []
  end.

Definition has_type (ty : ElementType) (n : ReactNode) : bool :=
  bool_decide (node_type n = Some ty).

(** The first child of [n] that is a [tag] element. *)
Definition child_by_tag (tag : string) (n : ReactNode) : option ReactNode :=
  List.find (has_type (Host tag)) (node_children n).

Definition attr (k : string) (n : ReactNode) : option PropValue :=
  node_props n !! k.

(** The class list of an element: the tokens of its [className]. *)
Definition class_list (n : ReactNode) : list string :=
  match attr "className" n with
  | Some (PString s) => ClassNames.class_tokens s
  | _ => []
  end.

(** The text of a tree of host elements and text nodes.  What a mounted
    component renders is not decided by the tree that mounts it, so a
    tree with a component element has no text here. *)
Fixpoint textContent (n : ReactNode) : option string :=
  let fix all (l : list ReactNode) : option string :=
    match l with
    | [] => Some EmptyString
    | x :: l' => s ← textContent x; t ← all l'; Some (s +:+ t)
    end in
  match n with
  | RUndefined | RNull | RBool _ => Some EmptyString
  | RText s => Some s
  | RArray items => all items
  | RElement (Host _) _ kids => all kids
  | RElement (Comp _) _ _ => None
  end.

(** Content that renders nothing: [undefined], [null], a boolean, the
    empty string, or an array of such. *)
Fixpoint renders_nothing (n : ReactNode) : bool :=
  match n with
  | RUndefined | RNull | RBool _ => true
  | RText s => String.eqb s EmptyString
  | RArray items => forallb renders_nothing items
  | RElement _ _ _ => false
  end.

(** The nodes that a tree puts into the document, in document order: an
    element comes before its descendants, siblings come in source order.
    An array is no node of its own; [undefined], [null], booleans and the
    empty string put nothing into the document. *)
Fixpoint document_order (n : ReactNode) : list ReactNode :=
  match n with
  | RUndefined | RNull | RBool _ => []
  | RText s => if String.eqb s EmptyString then [] else [n]
  | RArray items => flat_map document_order items
  | RElement _ _ kids => n :: flat_map document_order kids
  end.

End React.

(** ** Calls of JavaScript functions *)

Module Calls.

(** How a call ends: with a value, or with an exception. *)
Inductive Completion (A : Type) : Type :=
| Normal (a : A)
| Throw (error : Js.value).

Arguments Normal {A} a.
Arguments Throw {A} error.

(** A call runs in an ambient state [W], which stands for everything
    outside the arguments that a function body can reach: module-level and
    global variables, the state that hooks keep, the queue of the
    notification host.  The call can read the state, replace it, and
    throw. *)
Definition Call (W A : Type) : Type := W → Completion A * W.



Definition read {W : Type} : Call W W := λ w, (Normal w, w).

Definition write {W : Type} (w' : W) : Call W unit := λ _, (Normal tt, w').

Definition throw {W A : Type} (e : Js.value) : Call W A := λ w, (Throw e, w).

End Calls.

(** ** The layout module *)

Module Layout.
Import React.

(** The object that the font loader of [geist/font/sans] returns; the
    layout reads its [className] only. *)
Record NextFont : Type := { className : string }.

(** [export const metadata = { ... }] *)
Definition metadata : Js.value :=
  Js.Obj
    [ ("title", Js.Str "Snoqualmie Tourism Virtual Assistant");
      ("description",
        Js.Str "The ultimate guide to Historic Downtown Snoqualmie.");
      ("openGraph",
        Js.Obj
          [ ("images",
              Js.Arr
                [ Js.Obj
                    [ ("url",
                        Js.Str "/og?title=Snoqualmie Tourism Virtual Assistant")
                    ] ]) ]);
      ("twitter",
        Js.Obj
          [ ("card", Js.Str "summary_large_image");
            ("images",
              Js.Arr
                [ Js.Obj
                    [ ("url",
                        Js.Str "/og?title=Snoqualmie Tourism Virtual Assistant")
                    ] ]) ]) ].

(** The descriptor shape as the specification of the external interfaces
    words it (the source gives [metadata] no type annotation):
    [{ title: string, description: string,
       openGraph: { images: [{ url: string }] },
       twitter: { card: string, images: [{ url: string }] } }]. *)
Definition MetadataShape : Js.shape :=
  let images := Js.SArray (Js.SObject [("url", Js.SString)]) in
  Js.SObject
    [ ("title", Js.SString);
      ("description", Js.SString);
      ("openGraph", Js.SObject [("images", images)]);
      ("twitter", Js.SObject [("card", Js.SString); ("images", images)]) ].

(** The parameter type of [RootLayout]: [{ children: React.ReactNode }]. *)
Record Props : Type := { children : ReactNode }.

Section RootLayout.

(** [import { GeistSans } from "geist/font/sans"] *)
Variable GeistSans : NextFont.

(** [export default function RootLayout({ children })] *)
Definition RootLayout (props : Props) : ReactNode :=
  let children := children props in
  RElement (Host "html") {[ "lang" := PString "en" ]}
    [ RElement (Host "head") ∅ [];
      RElement (Host "body")
        {[ "className" :=
             PString (ClassNames.cn [className GeistSans; "antialiased dark"]) ]}
        [ RElement (Comp Toaster)
            {[ "position" := PString "top-center";
               "richColors" := PBool true ]} [];
          RElement (Comp Navbar) ∅ [];
          children ] ].


End RootLayout.

(** The [body] element of a rendered document. *)
Definition body (tree : ReactNode) : option ReactNode :=
  child_by_tag "body" tree.

End Layout.


(** * Properties *)

(** ** Class lists survive the merge *)

Section class_tokens.
Import ClassNames.

Implicit Types (s t cur : string) (a : ascii) (l : list string).

Lemma app_cons a s t : String a s +:+ t = String a (s +:+ t).
Proof. reflexivity. Qed.

Lemma app_empty_r s : s +:+ EmptyString = s.
Proof. induction s as [|a s IH]; [done|]. by rewrite app_cons, IH. Qed.

Lemma app_snoc cur a t : (cur +:+ String a EmptyString) +:+ t = cur +:+ String a t.
Proof. induction cur as [|b cur IH]; [done|]. by rewrite !app_cons, IH. Qed.

Lemma no_whitespace_snoc cur a :
  no_whitespace cur = true → is_ascii_whitespace a = false →
  no_whitespace (cur +:+ String a EmptyString) = true.
Proof.
  intros Hcur Ha. induction cur as [|b cur IH]; simpl in *.
  - by rewrite Ha.
  - apply andb_true_iff in Hcur as [-> ?]. auto.
Qed.

Lemma emit_token t rest : is_class_token t = true → emit t rest = t :: rest.
Proof.
  unfold is_class_token, emit. intros [Hne _]%andb_true_iff.
  by destruct (String.eqb t EmptyString).
Qed.

Lemma emit_tokens cur rest :
  no_whitespace cur = true → Forall (λ t, is_class_token t = true) rest →
  Forall (λ t, is_class_token t = true) (emit cur rest).
Proof.
  intros Hcur Hrest. unfold emit.
  destruct (String.eqb cur EmptyString) eqn:E; [done|].
  constructor; [|done]. unfold is_class_token. by rewrite E, Hcur.
Qed.

(** A run without whitespace is read into the token under construction. *)
Lemma tokens_go_run t : ∀ cur rest,
  no_whitespace t = true →
  tokens_go cur (t +:+ rest) = tokens_go (cur +:+ t) rest.
Proof.
  induction t as [|a t IH]; intros cur rest Ht.
  - by rewrite app_empty_r.
  - simpl in Ht. apply andb_true_iff in Ht as [Ha%negb_true_iff Ht].
    rewrite app_cons. simpl. rewrite Ha, IH by done. by rewrite app_snoc.
Qed.

Lemma class_tokens_single t : is_class_token t = true → class_tokens t = [t].
Proof.
  intros Ht. unfold class_tokens.
  rewrite <-(app_empty_r t) at 1. rewrite tokens_go_run.
  - simpl. by apply emit_token.
  - by apply andb_true_iff in Ht as [_ ?].
Qed.

(** Joining class names with single spaces and reading the class list back
    gives the same names. *)
Lemma class_tokens_concat l :
  Forall (λ t, is_class_token t = true) l → class_tokens (String.concat " " l) = l.
Proof.
  induction 1 as [|t l Ht Hl IH]; [done|].
  destruct l as [|u l].
  - by apply class_tokens_single.
  - change (String.concat " " (t :: u :: l))
      with (t +:+ String " " (String.concat " " (u :: l))).
    generalize dependent (String.concat " " (u :: l)). intros r IH.
    unfold class_tokens in *. rewrite tokens_go_run.
    + simpl. rewrite IH. by apply emit_token.
    + by apply andb_true_iff in Ht as [_ ?].
Qed.

(** Whatever the string, its class list holds class names only. *)
Lemma tokens_go_tokens s : ∀ cur,
  no_whitespace cur = true → Forall (λ t, is_class_token t = true) (tokens_go cur s).
Proof.
  induction s as [|a s IH]; intros cur Hcur; simpl.
  - by apply emit_tokens.
  - destruct (is_ascii_whitespace a) eqn:Ha.
    + apply emit_tokens; [done|]. by apply IH.
    + apply IH. by apply no_whitespace_snoc.
Qed.

Lemma class_tokens_tokens s : Forall (λ t, is_class_token t = true) (class_tokens s).
Proof. by apply tokens_go_tokens. Qed.

Lemma remove_dups_NoDup l : NoDup l → remove_dups l = l.
Proof.
  induction 1 as [|t l Hnotin _ IH]; [done|]. simpl.
  destruct (decide_rel elem_of t l); [done|]. by rewrite IH.
Qed.

(** The class list of a merged class string: the class names of the
    arguments, each once. *)
Lemma class_tokens_cn (inputs : list string) :
  class_tokens (cn inputs) = remove_dups (flat_map class_tokens inputs).
Proof.
  unfold cn. apply class_tokens_concat.
  apply Forall_forall. intros t Ht.
  apply (proj1 (elem_of_remove_dups _ _)) in Ht.
  apply (proj1 (list_elem_of_In _ _)), in_flat_map in Ht as (s & _ & Ht).
  apply (proj2 (list_elem_of_In _ _)) in Ht.
  by apply (proj1 (Forall_forall _ _) (class_tokens_tokens s)).
Qed.

End class_tokens.

(** ** The rendered document *)

Section rendered_document.
Import React Layout.

Implicit Types (GeistSans : NextFont) (props : Props) (C : ReactNode).

Lemma body_RootLayout GeistSans props :
  body (RootLayout GeistSans props)
  = Some (RElement (Host "body")
            {[ "className" :=
                 PString (ClassNames.cn [className GeistSans; "antialiased dark"]) ]}
            [ RElement (Comp Toaster)
                {[ "position" := PString "top-center";
                   "richColors" := PBool true ]} [];
              RElement (Comp Navbar) ∅ [];
              children props ]).
Proof. reflexivity. Qed.

(** C1: for every child content [C], the body of the tree that
    [RootLayout] renders has exactly three children, in this order: the
    [Toaster] element, the [Navbar] element, and [C] itself as the last
    child; for [C] the text node "Hello", the text content of the last
    child of the body is "Hello". *)
Theorem body_children_in_order GeistSans C :
  (∃ b toaster navbar,
      body (RootLayout GeistSans {| children := C |}) = Some b
      ∧ node_children b = [toaster; navbar; C]
      ∧ node_type toaster = Some (Comp Toaster)
      ∧ node_type navbar = Some (Comp Navbar)
      ∧ last (node_children b) = Some C)
  ∧ (b ← body (RootLayout GeistSans {| children := RText "Hello" |});
     x ← last (node_children b);
     textContent x) = Some "Hello".
Proof.
  split; [|by rewrite body_RootLayout].
  rewrite body_RootLayout. by eexists _, _, _.
Qed.

(** C4: for every children input, the root element of the rendered tree
    is the [html] element and carries the attribute [lang="en"]. *)
Theorem root_lang_en GeistSans props :
  node_type (RootLayout GeistSans props) = Some (Host "html")
  ∧ attr "lang" (RootLayout GeistSans props) = Some (PString "en").
Proof. by split. Qed.

(** C7: in every rendered tree the notification host, the first child of
    the body, is a [Toaster] element whose [position] is "top-center" and
    whose [richColors] is [true]; it is passed no other option and no
    children. *)
Theorem toaster_configuration GeistSans props :
  ∃ b toaster,
    body (RootLayout GeistSans props) = Some b
    ∧ node_children b !! 0 = Some toaster
    ∧ node_type toaster = Some (Comp Toaster)
    ∧ attr "position" toaster = Some (PString "top-center")
    ∧ attr "richColors" toaster = Some (PBool true)
    ∧ dom (node_props toaster) = {[ "position"; "richColors" ]}
    ∧ node_children toaster = [].
Proof.
  rewrite body_RootLayout. eexists _, _.
  repeat split; reflexivity.
Qed.

(** [x] is none of the listed, pairwise distinct, names. *)
Local Ltac not_listed :=
  let Hin := fresh "Hin" in
  intros Hin;
  repeat (apply elem_of_cons in Hin as [Hin|Hin]; [congruence|]);
  by apply elem_of_nil in Hin.

Lemma class_list_body GeistSans props :
  class_list <$> body (RootLayout GeistSans props)
  = Some (remove_dups
            (ClassNames.class_tokens (className GeistSans)
               ++ ["antialiased"; "dark"])).
Proof.
  rewrite body_RootLayout. simpl. f_equal.
  change (class_list ?b)
    with (ClassNames.class_tokens
            (ClassNames.cn [className GeistSans; "antialiased dark"])).
  rewrite class_tokens_cn. reflexivity.
Qed.

(** C3: for every children input, the class list of the rendered body
    contains "dark" and "antialiased"; when the font class is a single
    class name other than these two, the class list is exactly the font
    class, "antialiased", "dark". *)
Theorem body_class_list GeistSans props :
  ∃ classes,
    class_list <$> body (RootLayout GeistSans props) = Some classes
    ∧ "dark" ∈ classes
    ∧ "antialiased" ∈ classes
    ∧ (ClassNames.is_class_token (className GeistSans) = true →
       className GeistSans ≠ "antialiased" →
       className GeistSans ≠ "dark" →
       classes = [className GeistSans; "antialiased"; "dark"]).
Proof.
  eexists. split; [apply class_list_body|].
  split; [|split].
  - apply elem_of_remove_dups, elem_of_app. right. set_solver.
  - apply elem_of_remove_dups, elem_of_app. right. set_solver.
  - intros Htoken Hne1 Hne2. rewrite class_tokens_single by done.
    apply remove_dups_NoDup. simpl.
    repeat (constructor; [not_listed|]). constructor.
Qed.

Lemma body_class_list_witness :
  class_list <$>
    body (RootLayout {| className := "__className_3a0388" |}
            {| children := RNull |})
  = Some ["__className_3a0388"; "antialiased"; "dark"].
Proof.
  destruct (body_class_list {| className := "__className_3a0388" |}
              {| children := RNull |}) as (classes & Hbody & _ & _ & Hexact).
  rewrite Hbody. f_equal. apply Hexact; [reflexivity | discriminate..].
Defined.

(** C5: when the children render nothing, [RootLayout] still evaluates to
    a document, and its body holds the [Toaster] element and the [Navbar]
    element. *)
Theorem empty_children_render GeistSans props :
  renders_nothing (children props) = true →
  ∃ b toaster navbar,
    body (RootLayout GeistSans props) = Some b
    ∧ toaster ∈ node_children b
    ∧ node_type toaster = Some (Comp Toaster)
    ∧ navbar ∈ node_children b
    ∧ node_type navbar = Some (Comp Navbar).
Proof.
  intros _. rewrite body_RootLayout. eexists _, _, _.
  split; [reflexivity|]. simpl.
  split; [apply list_elem_of_here|]. split; [reflexivity|].
  split; [apply list_elem_of_further, list_elem_of_here|]. reflexivity.
Qed.

Lemma empty_children_render_witness :
  renders_nothing RUndefined = true
  ∧ ∃ b toaster navbar,
      body (RootLayout {| className := "__className_3a0388" |}
              {| children := RUndefined |}) = Some b
      ∧ toaster ∈ node_children b
      ∧ node_type toaster = Some (Comp Toaster)
      ∧ navbar ∈ node_children b
      ∧ node_type navbar = Some (Comp Navbar).
Proof.
  split; [reflexivity|].
  apply (empty_children_render {| className := "__className_3a0388" |}
           {| children := RUndefined |}).
  reflexivity.
Defined.



End rendered_document.

(** ** The metadata descriptor *)

Section metadata_descriptor.
Import Layout.

(** C2: the [title] of the exported descriptor is the literal
    "Snoqualmie Tourism Virtual Assistant"; the descriptor is a constant of
    the module, no render and no children take part in it. *)
Theorem metadata_title :
  Js.get "title" metadata
  = Some (Js.Str "Snoqualmie Tourism Virtual Assistant").
Proof. reflexivity. Qed.

(** C10: the [description] of the exported descriptor is the literal
    "The ultimate guide to Historic Downtown Snoqualmie."; it is a constant
    of the module. *)
Theorem metadata_description :
  Js.get "description" metadata
  = Some (Js.Str "The ultimate guide to Historic Downtown Snoqualmie.").
Proof. reflexivity. Qed.

(** C8: the exported descriptor has the shape
    [{ title, description, openGraph: { images: [{ url }] },
       twitter: { card, images: [{ url }] } }] with string leaves, and each
    of its [url] fields names the preview-image endpoint [/og] with a
    [title] query parameter. *)
Theorem metadata_shape_and_urls :
  Js.conforms MetadataShape metadata = true
  ∧ length (Js.strings_at "url" metadata) = 2
  ∧ Forall (λ url, Url.path url = "/og"
                   ∧ is_Some (Url.search_param "title" url))
      (Js.strings_at "url" metadata).
Proof.
  split; [reflexivity|]. split; [reflexivity|].
  change (Js.strings_at "url" metadata)
    with [ "/og?title=Snoqualmie Tourism Virtual Assistant";
           "/og?title=Snoqualmie Tourism Virtual Assistant" ].
  repeat constructor; by eexists.
Qed.

(** C9: [openGraph.images] and [twitter.images] hold one entry each; both
    entries have the [url] "/og?title=Snoqualmie Tourism Virtual
    Assistant", whose [title] query value is the descriptor's [title]; and
    [twitter.card] is "summary_large_image". *)
Theorem metadata_preview_images :
  let url := "/og?title=Snoqualmie Tourism Virtual Assistant" in
  ∃ og tw,
    Js.get_path ["openGraph"; "images"] metadata = Some (Js.Arr [og])
    ∧ Js.get_path ["twitter"; "images"] metadata = Some (Js.Arr [tw])
    ∧ Js.get "url" og = Some (Js.Str url)
    ∧ Js.get "url" tw = Some (Js.Str url)
    ∧ Js.Str <$> Url.search_param "title" url = Js.get "title" metadata
    ∧ Js.get_path ["twitter"; "card"] metadata
      = Some (Js.Str "summary_large_image").
Proof. eexists _, _. repeat split; reflexivity. Qed.

End metadata_descriptor.

(** ** Document order of the rendered tree *)

Section document_order.
Import React Layout.

Implicit Types (GeistSans : NextFont) (props : Props) (n : ReactNode).

(** Content that renders nothing puts no node into the document. *)
Lemma document_order_nothing : ∀ n,
  renders_nothing n = true → document_order n = [].
Proof.
  fix IH 1. intros [| | b | s | items | ty ps kids]; simpl; try done.
  - by intros ->.
  - induction items as [|x items IHitems]; simpl; [done|].
    intros [Hx Hitems]%andb_true_iff.
    by rewrite (IH x Hx), (IHitems Hitems).
Qed.

(** X1: whatever the children, the document that [RootLayout] renders
    starts with [html], an empty [head] without attributes, [body], the
    [Toaster] element and the [Navbar] element, and all nodes of the
    children follow, in their own document order. *)
Theorem RootLayout_document_order GeistSans props :
  ∃ html head b toaster navbar,
    document_order (RootLayout GeistSans props)
    = [html; head; b; toaster; navbar] ++ document_order (children props)
    ∧ html = RootLayout GeistSans props
    ∧ head = RElement (Host "head") ∅ []
    ∧ body html = Some b
    ∧ node_type toaster = Some (Comp Toaster)
    ∧ node_type navbar = Some (Comp Navbar).
Proof.
  eexists _, _, _, _, _. split; [simpl; by rewrite !app_nil_r|].
  repeat split; reflexivity.
Qed.

(** X2: when the children render nothing ([undefined], [null], a boolean,
    the empty string, or arrays of these, however nested), the rendered
    document consists of the five elements of the shell and nothing else:
    [html], [head], [body], [Toaster], [Navbar], in this order. *)
Theorem RootLayout_shell_only GeistSans props :
  renders_nothing (children props) = true →
  node_type <$> document_order (RootLayout GeistSans props)
  = [ Some (Host "html"); Some (Host "head"); Some (Host "body");
      Some (Comp Toaster); Some (Comp Navbar) ].
Proof.
  intros Hnothing. simpl.
  by rewrite (document_order_nothing _ Hnothing).
Qed.

Lemma RootLayout_shell_only_witness :
  node_type <$>
    document_order
      (RootLayout {| className := "__className_3a0388" |}
         {| children := RArray [RNull; RText ""; RArray [RBool false]] |})
  = [ Some (Host "html"); Some (Host "head"); Some (Host "body");
      Some (Comp Toaster); Some (Comp Navbar) ].
Proof.
  apply (RootLayout_shell_only {| className := "__className_3a0388" |}
           {| children := RArray [RNull; RText ""; RArray [RBool false]] |}).
  reflexivity.
Defined.

(** X3: the layout loses nothing of its children: two invocations that
    render equal trees were given equal children. *)
Theorem RootLayout_children_inj GeistSans props1 props2 :
  RootLayout GeistSans props1 = RootLayout GeistSans props2 →
  children props1 = children props2.
Proof. unfold RootLayout. intros Heq. by simplify_eq. Qed.

Lemma RootLayout_children_inj_witness :
  children {| children := RText "Hello" |}
  = children {| children := RText "Hello" |}.
Proof.
  apply (RootLayout_children_inj {| className := "__className_3a0388" |}
           {| children := RText "Hello" |} {| children := RText "Hello" |}).
  reflexivity.
Defined.

End document_order.
